(** * Lumina: the in-memory entity store ([server/storage.ts])

    A shallow embedding of [MemStorage] and of the JavaScript it is written in,
    with the properties of the store's contract proved over it.

    - Entity records ([User], [Donation], ...) come from [@shared/schema], which
      is erased at run time: a record is a JavaScript object, a finite map from
      property names to values, and an object spread is a (right-biased) union.
    - A [Map<string, V>] is an insertion-ordered association list.
    - [randomUUID()] and [new Date()] read two streams of the [World]; an
      [async] method is a computation over the [World] that returns or throws. *)

From Stdlib Require Import ZArith String List Floats Permutation Sorted Lia.
From stdpp Require Import gmap strings list fin_maps pretty.

#[local] Set Warnings "-register-all".
#[local] Set Warnings "-inexact-float".
#[local] Open Scope string_scope.
#[local] Open Scope Z_scope.
#[local] Open Scope list_scope.

(** ** JavaScript values *)

Inductive value : Type :=
| VUndef
| VNull
| VBool (b : bool)
| VNum (x : float)
| VStr (s : string)
| VDate (t : Z)                       (* a valid Date: its time value, in ms *)
| VArr (l : list value)
| VObj (o : gmap string value).

(** An object: the own enumerable properties and their values. *)
Abbreviation obj := (gmap string value).

(** [{ k1: v1, k2: v2, ... }]: the literals of the source name every key once. *)
Definition object (fields : list (string * value)) : obj := list_to_map fields.

(** [o.f]: a property that is absent reads as [undefined]. *)
Definition prop (o : obj) (f : string) : value := default VUndef (o !! f).

(** [v.f] on a value that is neither [undefined] nor [null]. Primitives,
    dates and arrays have no property named [lat] or [lng], the only names
    read this way. *)
Definition member (v : value) (f : string) : value :=
  match v with
  | VObj o => prop o f
  | _ => VUndef
  end.

(** [{ ...a, ...b }] *)
Definition spread (a b : obj) : obj := b ∪ a.

(** [a ?? b] *)
Definition nullish (a b : value) : value :=
  match a with
  | VUndef | VNull => b
  | _ => a
  end.

(** ToBoolean *)
Definition truthy (v : value) : bool :=
  match v with
  | VUndef | VNull => false
  | VBool b => b
  | VNum x => negb (PrimFloat.eqb x 0 || PrimFloat.is_nan x)
  | VStr s => negb (String.eqb s "")
  | VDate _ | VArr _ | VObj _ => true
  end.

(** [a || b] *)
Definition or_else (a b : value) : value := if truthy a then a else b.

(** [v === s] for a string [s]. *)
Definition strict_eq_string (v : value) (s : string) : bool :=
  match v with
  | VStr s' => String.eqb s' s
  | _ => false
  end.

(** [typeof v === 'number'] *)
Definition is_number (v : value) : bool :=
  match v with
  | VNum _ => true
  | _ => false
  end.

(** ** Results of a call *)

Inductive Exn : Type :=
| Error (message : string)            (* [throw new Error(message)] *)
| TypeError.                          (* raised by the runtime *)

Inductive Result (A : Type) : Type :=
| Ok (a : A)
| Throw (e : Exn).
Arguments Ok {A} a.
Arguments Throw {A} e.

#[global] Instance Result_ret : MRet Result := λ A a, Ok a.
#[global] Instance Result_bind : MBind Result := λ A B f r,
  match r with
  | Ok a => f a
  | Throw e => Throw e
  end.

(** [d.getTime()]: a [TypeError] when [d] is not a Date. *)
Definition getTime (d : value) : Result Z :=
  match d with
  | VDate t => Ok t
  | _ => Throw TypeError
  end.

(** ** [Map<string, V>]

    Insertion-ordered: [set] on a key that is present replaces the value in
    place, on a new key appends the entry. *)

Abbreviation JsMap := (list (string * obj)).

Fixpoint Map_get (k : string) (m : JsMap) : option obj :=
  match m with
  | [] => None
  | (k', v) :: m' => if String.eqb k k' then Some v else Map_get k m'
  end.

Fixpoint Map_set (k : string) (v : obj) (m : JsMap) : JsMap :=
  match m with
  | [] => [(k, v)]
  | (k', v') :: m' =>
      if String.eqb k k' then (k, v) :: m' else (k', v') :: Map_set k v m'
  end.

(** [Array.from(m.values())] *)
Definition Map_values (m : JsMap) : list obj := map snd m.

(** ** [Array.prototype.sort] and [slice]

    The comparator is called as [comparefn x y]; a positive result puts [y]
    first, anything else keeps [x] before [y]. The sort is stable, as
    ECMAScript requires, and for a comparator that orders by a key it is the
    one stable ordering, whatever algorithm the engine runs. A comparator that
    throws aborts the sort. *)

Fixpoint sort_insert (comparefn : obj → obj → Result Z) (x : obj) (sorted : list obj)
  : Result (list obj) :=
  match sorted with
  | [] => Ok [x]
  | y :: rest =>
      c ← comparefn x y;
      if 0 <? c then rest' ← sort_insert comparefn x rest; Ok (y :: rest')
      else Ok (x :: y :: rest)
  end.

Fixpoint Array_sort (comparefn : obj → obj → Result Z) (l : list obj)
  : Result (list obj) :=
  match l with
  | [] => Ok []
  | x :: l' => sorted ← Array_sort comparefn l'; sort_insert comparefn x sorted
  end.


(** ** The store and its host *)

(** The ten private maps of [MemStorage]. *)
Record MemStorage : Type := {
  users : JsMap;
  organizations : JsMap;
  donations : JsMap;
  requests : JsMap;
  activities : JsMap;
  volunteerRegistrations : JsMap;
  matches : JsMap;
  activityFeed : JsMap;
  payments : JsMap;
  notifications : JsMap;
}.

(** [new MemStorage()] *)
Definition new_MemStorage : MemStorage :=
  {| users := []; organizations := []; donations := []; requests := [];
     activities := []; volunteerRegistrations := []; matches := [];
     activityFeed := []; payments := []; notifications := [] |}.

(** The store with what the process supplies: the [n]-th identifier
    [randomUUID()] returns and the [n]-th time [new Date()] reads, with the
    number of each drawn so far. Nothing is assumed of either stream. *)
Record World : Type := {
  this : MemStorage;
  uuid_stream : nat → string;
  uuid_drawn : nat;
  clock_stream : nat → Z;
  clock_drawn : nat;
}.

Definition boot (uuid : nat → string) (clock : nat → Z) : World :=
  {| this := new_MemStorage; uuid_stream := uuid; uuid_drawn := 0;
     clock_stream := clock; clock_drawn := 0 |}.

(** A method body: it returns or throws, and leaves a world behind. *)
Definition M (A : Type) : Type := World → Result A * World.

#[global] Instance M_ret : MRet M := λ A a w, (Ok a, w).
#[global] Instance M_bind : MBind M := λ A B f m w,
  match m w with
  | (Ok a, w') => f a w'
  | (Throw e, w') => (Throw e, w')
  end.

Definition throw {A} (e : Exn) : M A := λ w, (Throw e, w).

Definition lift {A} (r : Result A) : M A := λ w, (r, w).

Definition randomUUID : M string := λ w,
  (Ok (uuid_stream w (uuid_drawn w)),
   {| this := this w; uuid_stream := uuid_stream w; uuid_drawn := S (uuid_drawn w);
      clock_stream := clock_stream w; clock_drawn := clock_drawn w |}).

Definition new_Date : M value := λ w,
  (Ok (VDate (clock_stream w (clock_drawn w))),
   {| this := this w; uuid_stream := uuid_stream w; uuid_drawn := uuid_drawn w;
      clock_stream := clock_stream w; clock_drawn := S (clock_drawn w) |}).

(** [this.field] *)
Definition read {A} (field : MemStorage → A) : M A := λ w, (Ok (field (this w)), w).

Definition update (f : MemStorage → MemStorage) : M unit := λ w,
  (Ok tt,
   {| this := f (this w); uuid_stream := uuid_stream w; uuid_drawn := uuid_drawn w;
      clock_stream := clock_stream w; clock_drawn := clock_drawn w |}).

(** [this.users.set(id, v)] and its nine siblings. *)
Definition users_set (id : string) (v : obj) : M unit :=
  update (λ s,
    {| users := Map_set id v (users s); organizations := organizations s;
       donations := donations s; requests := requests s; activities := activities s;
       volunteerRegistrations := volunteerRegistrations s; matches := matches s;
       activityFeed := activityFeed s; payments := payments s;
       notifications := notifications s |}).

Definition organizations_set (id : string) (v : obj) : M unit :=
  update (λ s,
    {| users := users s; organizations := Map_set id v (organizations s);
       donations := donations s; requests := requests s; activities := activities s;
       volunteerRegistrations := volunteerRegistrations s; matches := matches s;
       activityFeed := activityFeed s; payments := payments s;
       notifications := notifications s |}).

Definition donations_set (id : string) (v : obj) : M unit :=
  update (λ s,
    {| users := users s; organizations := organizations s;
       donations := Map_set id v (donations s); requests := requests s;
       activities := activities s;
       volunteerRegistrations := volunteerRegistrations s; matches := matches s;
       activityFeed := activityFeed s; payments := payments s;
       notifications := notifications s |}).

Definition requests_set (id : string) (v : obj) : M unit :=
  update (λ s,
    {| users := users s; organizations := organizations s; donations := donations s;
       requests := Map_set id v (requests s); activities := activities s;
       volunteerRegistrations := volunteerRegistrations s; matches := matches s;
       activityFeed := activityFeed s; payments := payments s;
       notifications := notifications s |}).

Definition activities_set (id : string) (v : obj) : M unit :=
  update (λ s,
    {| users := users s; organizations := organizations s; donations := donations s;
       requests := requests s; activities := Map_set id v (activities s);
       volunteerRegistrations := volunteerRegistrations s; matches := matches s;
       activityFeed := activityFeed s; payments := payments s;
       notifications := notifications s |}).

Definition volunteerRegistrations_set (id : string) (v : obj) : M unit :=
  update (λ s,
    {| users := users s; organizations := organizations s; donations := donations s;
       requests := requests s; activities := activities s;
       volunteerRegistrations := Map_set id v (volunteerRegistrations s);
       matches := matches s; activityFeed := activityFeed s; payments := payments s;
       notifications := notifications s |}).

Definition matches_set (id : string) (v : obj) : M unit :=
  update (λ s,
    {| users := users s; organizations := organizations s; donations := donations s;
       requests := requests s; activities := activities s;
       volunteerRegistrations := volunteerRegistrations s;
       matches := Map_set id v (matches s); activityFeed := activityFeed s;
       payments := payments s; notifications := notifications s |}).

Definition activityFeed_set (id : string) (v : obj) : M unit :=
  update (λ s,
    {| users := users s; organizations := organizations s; donations := donations s;
       requests := requests s; activities := activities s;
       volunteerRegistrations := volunteerRegistrations s; matches := matches s;
       activityFeed := Map_set id v (activityFeed s); payments := payments s;
       notifications := notifications s |}).

Definition payments_set (id : string) (v : obj) : M unit :=
  update (λ s,
    {| users := users s; organizations := organizations s; donations := donations s;
       requests := requests s; activities := activities s;
       volunteerRegistrations := volunteerRegistrations s; matches := matches s;
       activityFeed := activityFeed s; payments := Map_set id v (payments s);
       notifications := notifications s |}).

Definition notifications_set (id : string) (v : obj) : M unit :=
  update (λ s,
    {| users := users s; organizations := organizations s; donations := donations s;
       requests := requests s; activities := activities s;
       volunteerRegistrations := volunteerRegistrations s; matches := matches s;
       activityFeed := activityFeed s; payments := payments s;
       notifications := Map_set id v (notifications s) |}).

(** [Array.prototype.find] *)
Definition Array_find (p : obj → bool) (l : list obj) : option obj := List.find p l.

(** [(a, b) => b.createdAt.getTime() - a.createdAt.getTime()]. Time values are
    integers of magnitude at most 8.64e15, which doubles hold exactly, and the
    difference of two doubles has the sign of the exact difference: the
    comparator's sign is computed over [Z]. *)
Definition newest_first (a b : obj) : Result Z :=
  tb ← getTime (prop b "createdAt");
  ta ← getTime (prop a "createdAt");
  Ok (tb - ta).

(** [(a, b) => a.startTime.getTime() - b.startTime.getTime()] *)
Definition soonest_first (a b : obj) : Result Z :=
  ta ← getTime (prop a "startTime");
  tb ← getTime (prop b "startTime");
  Ok (ta - tb).

(** ** Arguments typed in [storage.ts] itself *)

(** [{ lat: number; lng: number; radius?: number }] *)
Record GeoQuery : Type := { lat : float; lng : float; radius : option float }.

(** [{ type?: string; location?: ... }] *)
Record DonationFilters : Type := {
  df_type : option string;
  df_location : option GeoQuery;
}.

(** [{ type?: string; urgency?: string; location?: ... }] *)
Record RequestFilters : Type := {
  rf_type : option string;
  rf_urgency : option string;
  rf_location : option GeoQuery;
}.

(** [{ location?: ... }] *)
Record ActivityFilters : Type := { af_location : option GeoQuery }.

(** [if (s) l = l.filter(keep s)] for an optional string [s]: the empty
    string is falsy, like [undefined]. *)
Definition filter_if (s : option string) (keep : string → obj → bool) (l : list obj)
  : list obj :=
  match s with
  | Some t => if truthy (VStr t) then List.filter (keep t) l else l
  | None => l
  end.

(** ** [class MemStorage] *)

Section MemStorage.

(** String conversion of a value that is not a primitive of the first four
    kinds, and the [Math] functions, are the engine's. *)
Variable ToString_other : value → string.
Variables Math_sin Math_cos Math_sqrt : float → float.
Variable Math_atan2 : float → float → float.

Definition ToString (v : value) : string :=
  match v with
  | VStr s => s
  | VUndef => "undefined"
  | VNull => "null"
  | VBool true => "true"
  | VBool false => "false"
  | _ => ToString_other v
  end.

Definition getUser (id : string) : M (option obj) :=
  m ← read users; mret (Map_get id m).

Definition getUserByEmail (email : string) : M (option obj) :=
  m ← read users;
  mret (Array_find (λ user, strict_eq_string (prop user "email") email) (Map_values m)).

Definition createUser (insertUser : obj) : M obj :=
  id ← randomUUID;
  createdAt ← new_Date;
  let user := object [
    ("id", VStr id);
    ("name", prop insertUser "name");
    ("email", prop insertUser "email");
    ("password", prop insertUser "password");
    ("userType", prop insertUser "userType");
    ("phone", nullish (prop insertUser "phone") VNull);
    ("avatar", VNull);
    ("bio", nullish (prop insertUser "bio") VNull);
    ("location", nullish (prop insertUser "location") VNull);
    ("verified", VBool false);
    ("createdAt", createdAt)] in
  users_set id user;;
  mret user.

Definition updateUser (id : string) (userUpdate : obj) : M obj :=
  m ← read users;
  match Map_get id m with
  | None => throw (Error "User not found")
  | Some user =>
      let updatedUser := spread user userUpdate in
      users_set id updatedUser;;
      mret updatedUser
  end.

Definition createOrganization (orgData : obj) : M obj :=
  id ← randomUUID;
  createdAt ← new_Date;
  let organization := object [
    ("id", VStr id);
    ("userId", prop orgData "userId");
    ("name", prop orgData "name");
    ("description", nullish (prop orgData "description") VNull);
    ("website", nullish (prop orgData "website") VNull);
    ("documents", nullish (prop orgData "documents") (VArr []));
    ("verified", VBool false);
    ("createdAt", createdAt);
    ("location", nullish (prop orgData "location") VUndef)] in
  organizations_set id organization;;
  mret organization.

Definition getOrganizationByUserId (userId : string) : M (option obj) :=
  m ← read organizations;
  mret (Array_find (λ org, strict_eq_string (prop org "userId") userId) (Map_values m)).

Definition Math_PI : float := 0x1.921fb54442d18p+1%float.

Definition haversine (lat1 lng1 lat2 lng2 : float) : float :=
  (let toRad := λ x : float, x * Math_PI / 180 in
   let R := 6371 in
   let dLat := toRad (lat2 - lat1) in
   let dLng := toRad (lng2 - lng1) in
   let a := Math_sin (dLat / 2) * Math_sin (dLat / 2) +
            Math_cos (toRad lat1) * Math_cos (toRad lat2) *
            Math_sin (dLng / 2) * Math_sin (dLng / 2) in
   let c := 2 * Math_atan2 (Math_sqrt a) (Math_sqrt (1 - a)) in
   R * c)%float.

(** The callback of the filter in [getOrganizationsByLocation]. *)
Definition within (lat lng radius : float) (org : obj) : bool :=
  let location := prop org "location" in
  if negb (truthy location)
     || negb (is_number (member location "lat"))
     || negb (is_number (member location "lng"))
  then false
  else
    match member location "lat", member location "lng" with
    | VNum org_lat, VNum org_lng =>
        PrimFloat.leb (haversine lat lng org_lat org_lng) radius
    | _, _ => false
    end.

Definition getOrganizationsByLocation (q : GeoQuery) : M (list obj) :=
  let radius := default 10%float (radius q) in
  m ← read organizations;
  mret (List.filter (within (lat q) (lng q) radius) (Map_values m)).

Definition createActivityFeedItem (itemData : obj) : M obj :=
  id ← randomUUID;
  createdAt ← new_Date;
  let item := <["createdAt" := createdAt]> (<["id" := VStr id]> itemData) in
  activityFeed_set id item;;
  mret item.


Definition createDonation (donationData : obj) : M obj :=
  id ← randomUUID;
  createdAt ← new_Date;
  let donation := object [
    ("id", VStr id);
    ("donorId", prop donationData "donorId");
    ("recipientId", VNull);
    ("type", prop donationData "type");
    ("title", prop donationData "title");
    ("description", nullish (prop donationData "description") VNull);
    ("amount", nullish (prop donationData "amount") VNull);
    ("quantity", nullish (prop donationData "quantity") VNull);
    ("location", nullish (prop donationData "location") VNull);
    ("images", nullish (prop donationData "images") (VArr []));
    ("status", VStr "active");
    ("expiryDate", nullish (prop donationData "expiryDate") VNull);
    ("createdAt", createdAt)] in
  donations_set id donation;;
  createActivityFeedItem (object [
    ("userId", prop donationData "donorId");
    ("type", VStr "donation");
    ("title", VStr ("New donation: " +:+ ToString (prop donation "title")));
    ("description", or_else (prop donation "description") (VStr ""));
    ("metadata", VObj (object [("donationId", VStr id); ("type", prop donation "type")]));
    ("likes", VNum 0);
    ("comments", VNum 0)]);;
  mret donation.

Definition getDonations (filters : option DonationFilters) : M (list obj) :=
  m ← read donations;
  let donations := Map_values m in
  let donations :=
    filter_if (filters ≫= df_type) (λ t d, strict_eq_string (prop d "type") t) donations in
  lift (Array_sort newest_first donations).

Definition getDonation (id : string) : M (option obj) :=
  m ← read donations; mret (Map_get id m).

Definition updateDonation (id : string) (donationUpdate : obj) : M obj :=
  m ← read donations;
  match Map_get id m with
  | None => throw (Error "Donation not found")
  | Some donation =>
      let updatedDonation := spread donation donationUpdate in
      donations_set id updatedDonation;;
      mret updatedDonation
  end.

Definition createRequest (requestData : obj) : M obj :=
  id ← randomUUID;
  createdAt ← new_Date;
  let request := object [
    ("id", VStr id);
    ("requesterId", prop requestData "requesterId");
    ("type", prop requestData "type");
    ("title", prop requestData "title");
    ("description", prop requestData "description");
    ("urgency", nullish (prop requestData "urgency") (VStr "medium"));
    ("targetAmount", nullish (prop requestData "targetAmount") VNull);
    ("raisedAmount", VStr "0");
    ("targetQuantity", nullish (prop requestData "targetQuantity") VNull);
    ("receivedQuantity", VNum 0);
    ("location", nullish (prop requestData "location") VNull);
    ("images", nullish (prop requestData "images") (VArr []));
    ("status", VStr "active");
    ("deadline", nullish (prop requestData "deadline") VNull);
    ("createdAt", createdAt)] in
  requests_set id request;;
  createActivityFeedItem (object [
    ("userId", prop requestData "requesterId");
    ("type", VStr "request");
    ("title", VStr ("New request: " +:+ ToString (prop request "title")));
    ("description", prop request "description");
    ("metadata", VObj (object [
       ("requestId", VStr id);
       ("urgency", nullish (prop request "urgency") (VStr "medium"))]));
    ("likes", VNum 0);
    ("comments", VNum 0)]);;
  mret request.

Definition getRequests (filters : option RequestFilters) : M (list obj) :=
  m ← read requests;
  let requests := Map_values m in
  let requests :=
    filter_if (filters ≫= rf_type) (λ t r, strict_eq_string (prop r "type") t) requests in
  let requests :=
    filter_if (filters ≫= rf_urgency) (λ u r, strict_eq_string (prop r "urgency") u)
      requests in
  lift (Array_sort newest_first requests).

Definition getRequest (id : string) : M (option obj) :=
  m ← read requests; mret (Map_get id m).

Definition updateRequest (id : string) (requestUpdate : obj) : M obj :=
  m ← read requests;
  match Map_get id m with
  | None => throw (Error "Request not found")
  | Some request =>
      let updatedRequest := spread request requestUpdate in
      requests_set id updatedRequest;;
      mret updatedRequest
  end.

Definition createActivity (activityData : obj) : M obj :=
  id ← randomUUID;
  createdAt ← new_Date;
  let activity := object [
    ("id", VStr id);
    ("organizerId", prop activityData "organizerId");
    ("title", prop activityData "title");
    ("description", prop activityData "description");
    ("location", prop activityData "location");
    ("startTime", prop activityData "startTime");
    ("endTime", prop activityData "endTime");
    ("maxVolunteers", nullish (prop activityData "maxVolunteers") VNull);
    ("currentVolunteers", VNum 0);
    ("skills", nullish (prop activityData "skills") (VArr []));
    ("status", VStr "active");
    ("createdAt", createdAt)] in
  activities_set id activity;;
  createActivityFeedItem (object [
    ("userId", prop activityData "organizerId");
    ("type", VStr "volunteer");
    ("title", VStr ("New volunteer opportunity: " +:+ ToString (prop activity "title")));
    ("description", prop activity "description");
    ("metadata", VObj (object [
       ("activityId", VStr id);
       ("location", prop activity "location")]));
    ("likes", VNum 0);
    ("comments", VNum 0)]);;
  mret activity.

Definition getActivities (filters : option ActivityFilters) : M (list obj) :=
  m ← read activities;
  lift (Array_sort soonest_first (Map_values m)).

Definition getActivity (id : string) : M (option obj) :=
  m ← read activities; mret (Map_get id m).

Definition updateActivity (id : string) (activityUpdate : obj) : M obj :=
  m ← read activities;
  match Map_get id m with
  | None => throw (Error "Activity not found")
  | Some activity =>
      let updatedActivity := spread activity activityUpdate in
      activities_set id updatedActivity;;
      mret updatedActivity
  end.

Definition createVolunteerRegistration (registrationData : obj) : M obj :=
  id ← randomUUID;
  createdAt ← new_Date;
  let registration := object [
    ("id", VStr id);
    ("activityId", prop registrationData "activityId");
    ("volunteerId", prop registrationData "volunteerId");
    ("status", VStr "pending");
    ("message", nullish (prop registrationData "message") VNull);
    ("createdAt", createdAt)] in
  volunteerRegistrations_set id registration;;
  mret registration.

Definition getVolunteerRegistrations (volunteerId : string) : M (list obj) :=
  m ← read volunteerRegistrations;
  mret (List.filter (λ r, strict_eq_string (prop r "volunteerId") volunteerId)
          (Map_values m)).

Definition getMatches (userId : string) : M (list obj) :=
  all ← read matches;
  mret (List.filter (λ m, strict_eq_string (prop m "userId") userId) (Map_values all)).

Definition createMatch (matchData : obj) : M obj :=
  id ← randomUUID;
  createdAt ← new_Date;
  let match_ := object [
    ("id", VStr id);
    ("donationId", nullish (prop matchData "donationId") VNull);
    ("requestId", nullish (prop matchData "requestId") VNull);
    ("activityId", nullish (prop matchData "activityId") VNull);
    ("userId", prop matchData "userId");
    ("score", prop matchData "score");
    ("reason", nullish (prop matchData "reason") VNull);
    ("status", nullish (prop matchData "status") (VStr "pending"));
    ("createdAt", createdAt)] in
  matches_set id match_;;
  mret match_.

Definition createPayment (paymentData : obj) : M obj :=
  id ← randomUUID;
  createdAt ← new_Date;
  let payment := object [
    ("id", VStr id);
    ("payerId", prop paymentData "payerId");
    ("recipientId", prop paymentData "recipientId");
    ("donationId", nullish (prop paymentData "donationId") VNull);
    ("requestId", nullish (prop paymentData "requestId") VNull);
    ("amount", prop paymentData "amount");
    ("razorpayPaymentId", nullish (prop paymentData "razorpayPaymentId") VNull);
    ("razorpayOrderId", nullish (prop paymentData "razorpayOrderId") VNull);
    ("status", prop paymentData "status");
    ("createdAt", createdAt)] in
  payments_set id payment;;
  mret payment.

Definition getPayment (id : string) : M (option obj) :=
  m ← read payments; mret (Map_get id m).

Definition updatePayment (id : string) (paymentUpdate : obj) : M obj :=
  m ← read payments;
  match Map_get id m with
  | None => throw (Error "Payment not found")
  | Some payment =>
      let updatedPayment := spread payment paymentUpdate in
      payments_set id updatedPayment;;
      mret updatedPayment
  end.

Definition getNotifications (userId : string) : M (list obj) :=
  m ← read notifications;
  lift (Array_sort newest_first
          (List.filter (λ n, strict_eq_string (prop n "userId") userId) (Map_values m))).

Definition createNotification (notificationData : obj) : M obj :=
  id ← randomUUID;
  createdAt ← new_Date;
  let notification :=
    <["createdAt" := createdAt]>
      (<["read" := VBool false]> (<["id" := VStr id]> notificationData)) in
  notifications_set id notification;;
  mret notification.

Definition markNotificationAsRead (id : string) : M unit :=
  m ← read notifications;
  match Map_get id m with
  | Some notification =>
      notifications_set id (<["read" := VBool true]> notification)
  | None => mret tt
  end.

(** ** Sequences of calls *)

(** The calls that write to the store; the [get...] methods leave the world
    as it is ([reads_keep_world] below). *)
Inductive Call : Type :=
| CreateUser (insertUser : obj)
| UpdateUser (id : string) (userUpdate : obj)
| CreateOrganization (orgData : obj)
| CreateDonation (donationData : obj)
| UpdateDonation (id : string) (donationUpdate : obj)
| CreateRequest (requestData : obj)
| UpdateRequest (id : string) (requestUpdate : obj)
| CreateActivity (activityData : obj)
| UpdateActivity (id : string) (activityUpdate : obj)
| CreateVolunteerRegistration (registrationData : obj)
| CreateMatch (matchData : obj)
| CreateActivityFeedItem (itemData : obj)
| CreatePayment (paymentData : obj)
| UpdatePayment (id : string) (paymentUpdate : obj)
| CreateNotification (notificationData : obj)
| MarkNotificationAsRead (id : string).

(** The world a call leaves, whether it returned or threw. *)
Definition after (c : Call) (w : World) : World :=
  match c with
  | CreateUser d => snd (createUser d w)
  | UpdateUser id p => snd (updateUser id p w)
  | CreateOrganization d => snd (createOrganization d w)
  | CreateDonation d => snd (createDonation d w)
  | UpdateDonation id p => snd (updateDonation id p w)
  | CreateRequest d => snd (createRequest d w)
  | UpdateRequest id p => snd (updateRequest id p w)
  | CreateActivity d => snd (createActivity d w)
  | UpdateActivity id p => snd (updateActivity id p w)
  | CreateVolunteerRegistration d => snd (createVolunteerRegistration d w)
  | CreateMatch d => snd (createMatch d w)
  | CreateActivityFeedItem d => snd (createActivityFeedItem d w)
  | CreatePayment d => snd (createPayment d w)
  | UpdatePayment id p => snd (updatePayment id p w)
  | CreateNotification d => snd (createNotification d w)
  | MarkNotificationAsRead id => snd (markNotificationAsRead id w)
  end.

Definition run (calls : list Call) (w : World) : World :=
  fold_left (λ w c, after c w) calls w.


End MemStorage.

(** * Specification vocabulary *)

(** An update method on one of the maps: an identifier that is absent makes
    it throw [Error message] and leave the world as it was, an identifier that
    is present makes it return. *)
Definition fails_when_absent (table : MemStorage → JsMap)
    (method : string → obj → M obj) (message : string) : Prop :=
  ∀ (id : string) (partial : obj) (w : World),
    match Map_get id (table (this w)) with
    | None => method id partial w = (Throw (Error message), w)
    | Some _ => ∃ r w', method id partial w = (Ok r, w')
    end.

(** An update method merges: the record it returns is the one stored under
    the identifier afterwards, it carries the partial's value at every property
    the partial names, and the prior value at every other. *)
Definition merges_partial (table : MemStorage → JsMap)
    (method : string → obj → M obj) : Prop :=
  ∀ (id : string) (partial : obj) (w : World) (record : obj),
    Map_get id (table (this w)) = Some record →
    ∃ r w',
      method id partial w = (Ok r, w') ∧
      Map_get id (table (this w')) = Some r ∧
      (∀ f v, partial !! f = Some v → r !! f = Some v) ∧
      (∀ f, partial !! f = None → r !! f = record !! f).

(** The two worlds differ at most in the notifications. *)
Definition same_but_notifications (w w' : World) : Prop :=
  users (this w') = users (this w) ∧
  organizations (this w') = organizations (this w) ∧
  donations (this w') = donations (this w) ∧
  requests (this w') = requests (this w) ∧
  activities (this w') = activities (this w) ∧
  volunteerRegistrations (this w') = volunteerRegistrations (this w) ∧
  matches (this w') = matches (this w) ∧
  activityFeed (this w') = activityFeed (this w) ∧
  payments (this w') = payments (this w) ∧
  uuid_stream w' = uuid_stream w ∧ uuid_drawn w' = uuid_drawn w ∧
  clock_stream w' = clock_stream w ∧ clock_drawn w' = clock_drawn w.

(** ** Sample data *)

Definition sample_uuid (n : nat) : string :=
  nth n ["7c9e"; "a1f4"; "b2d8"; "c3aa"; "d40b"; "e5c1"; "f6e7"; "0a19"] "ffff".

Definition ticking_clock (n : nat) : Z := 1750000000000 + Z.of_nat n.

(** A clock that reads the same millisecond every time. *)
Definition same_millisecond (n : nat) : Z := 1750000000000.

Definition sample_user : obj := object [
  ("name", VStr "Asha"); ("email", VStr "asha@example.org");
  ("password", VStr "$2b$10$hash"); ("userType", VStr "donor")].

(** The world after [createUser(sample_user)] on a fresh store. *)
Definition world_with_user : World :=
  snd (createUser sample_user (boot sample_uuid ticking_clock)).

Definition sample_notification : obj := object [
  ("userId", VStr "7c9e"); ("title", VStr "Thank you"); ("read", VBool true)].

Definition world_with_notification : World :=
  snd (createNotification sample_notification (boot sample_uuid ticking_clock)).

(** ** Order of a listing *)

(** The record carries a creation timestamp. *)
Definition dated (o : obj) : Prop := ∃ t, prop o "createdAt" = VDate t.

(** The creation timestamp of a dated record. *)
Definition stamp (o : obj) : Z :=
  match prop o "createdAt" with
  | VDate t => t
  | _ => 0
  end.

Definition created_at (t : Z) (o : obj) : bool := stamp o =? t.

(** [l] lists the records [wanted], each as often as it occurs there, newest
    first; records of one timestamp stand in the order they have in [wanted]. *)
Definition listed_newest_first (wanted l : list obj) : Prop :=
  l ≡ₚ wanted ∧
  StronglySorted (λ a b, stamp b ≤ stamp a) l ∧
  ∀ t, List.filter (created_at t) l = List.filter (created_at t) wanted.

(** The same with timestamps strictly descending. *)
Definition listed_strictly_newest_first (wanted l : list obj) : Prop :=
  l ≡ₚ wanted ∧ StronglySorted (λ a b, stamp b < stamp a) l.

(** [d.type === t] *)
Definition has_type (t : string) (d : obj) : bool := strict_eq_string (prop d "type") t.

(** What getDonations would do were the order strict and the type filter
    applied to every string. *)
Definition getDonations_strict_and_exact (w : World) (t : string) : Prop :=
  ∃ l,
    getDonations (Some {| df_type := Some t; df_location := None |}) w = (Ok l, w) ∧
    listed_strictly_newest_first
      (List.filter (has_type t) (Map_values (donations (this w)))) l.

(** The string conversion of the sample engine; the samples give it nothing
    to convert (their titles are strings). *)
Definition sample_ToString (v : value) : string := "[object Object]".

Definition rice : obj := object [
  ("donorId", VStr "7c9e"); ("type", VStr "food"); ("title", VStr "Rice, 10 kg")].

Definition bread : obj := object [
  ("donorId", VStr "7c9e"); ("type", VStr "food"); ("title", VStr "Bread")].

(** Two donations of food created within one millisecond. *)
Definition two_food_donations : World :=
  run sample_ToString [CreateDonation rice; CreateDonation bread]
    (boot sample_uuid same_millisecond).

(** ** The activity feed *)




(** ** The feed called with no limit *)








(** ** Identifiers *)

Definition tables : list (MemStorage → JsMap) :=
  [users; organizations; donations; requests; activities; volunteerRegistrations;
   matches; activityFeed; payments; notifications].

(** In every map, the record under a key has that key as its [id]: the
    identifier it was given at creation. (The lookups by identifier return the
    record their map holds under the key, [reads_keep_world].) *)
Definition ids_kept (w : World) : Prop :=
  ∀ table, table ∈ tables →
  ∀ id r, Map_get id (table (this w)) = Some r → r !! "id" = Some (VStr id).

(** The same, entry by entry. *)
Definition keyed_by_id (entry : string * obj) : Prop :=
  entry.2 !! "id" = Some (VStr entry.1).

Definition entries_keyed (w : World) : Prop :=
  Forall (λ table : MemStorage → JsMap, Forall keyed_by_id (table (this w))) tables.

(** The partial of an update does not name [id], or names it with the
    identifier the update is called with. *)
Definition partial_keeps_id (id : string) (partial : obj) : Prop :=
  partial !! "id" = None ∨ partial !! "id" = Some (VStr id).

Definition keeps_id (c : Call) : Prop :=
  match c with
  | UpdateUser id p | UpdateDonation id p | UpdateRequest id p
  | UpdateActivity id p | UpdatePayment id p => partial_keeps_id id p
  | _ => True
  end.

(** [createUser(sample_user)], then [updateUser] of that user with a partial
    that names [id]. *)
Definition world_with_renamed_user : World :=
  snd (updateUser "7c9e" {["id" := VStr "0000"]} world_with_user).

(** ** Matches *)

(** [v != null]: neither [null] nor [undefined]. *)
Definition is_set (v : value) : bool :=
  match v with
  | VUndef | VNull => false
  | _ => true
  end.

(** [v !== null] *)
Definition non_null (v : value) : bool :=
  match v with
  | VNull => false
  | _ => true
  end.

(** How many of [donationId], [requestId] and [activityId] pass [test]. *)
Definition references (test : value → bool) (m : obj) : nat :=
  length (List.filter test [prop m "donationId"; prop m "requestId"; prop m "activityId"]).

(** A stored match has at most one of the three non-null. *)
Definition single_reference (m : obj) : Prop := (references non_null m ≤ 1)%nat.

Definition matches_single (w : World) : Prop :=
  Forall single_reference (Map_values (matches (this w))).

(** Every createMatch of the sequence is given at most one of the three. *)
Definition gives_single_reference (c : Call) : Prop :=
  match c with
  | CreateMatch matchData => (references is_set matchData ≤ 1)%nat
  | _ => True
  end.

(** A match that points at a donation and at a request. *)
Definition double_match : obj := object [
  ("donationId", VStr "d-1"); ("requestId", VStr "r-1"); ("activityId", VNull);
  ("userId", VStr "7c9e"); ("score", VStr "0.8"); ("reason", VStr "nearby");
  ("status", VStr "pending")].

Definition world_with_double_match : World :=
  snd (createMatch double_match (boot sample_uuid ticking_clock)).

(** The match the donation route creates: a donation and nothing else. *)
Definition donation_match : obj := object [
  ("donationId", VStr "d-1"); ("requestId", VNull); ("activityId", VNull);
  ("userId", VStr "7c9e"); ("score", VStr "0.8"); ("reason", VStr "nearby");
  ("status", VStr "pending")].

(** ** Organizations by location *)

(** π and the mean radius of the Earth, in kilometres, as doubles. *)
Definition pi_double : float := 3.141592653589793%float.
Definition mean_Earth_radius : float := 6371%float.

Section Located.

Variables Math_sin Math_cos Math_sqrt : float → float.
Variable Math_atan2 : float → float → float.

(** Degrees to radians. *)
Definition radians (degrees : float) : float := (degrees * pi_double / 180)%float.

(** The haversine formula for the great-circle distance, in kilometres,
    between two points given by latitude and longitude in degrees:

      a = sin²(Δφ/2) + cos φ1 · cos φ2 · sin²(Δλ/2)
      d = R · 2 · atan2(√a, √(1 − a))

    with φ the latitudes and λ the longitudes in radians and R the mean radius
    of the Earth. Over doubles every operation rounds: the differences are
    taken in degrees, a square is a product, and a product of several factors
    is taken from the left. *)
Definition great_circle_distance (lat1 lng1 lat2 lng2 : float) : float :=
  (let phi1 := radians lat1 in
   let phi2 := radians lat2 in
   let delta_phi := radians (lat2 - lat1) in
   let delta_lambda := radians (lng2 - lng1) in
   let a := Math_sin (delta_phi / 2) * Math_sin (delta_phi / 2) +
            Math_cos phi1 * Math_cos phi2 *
            Math_sin (delta_lambda / 2) * Math_sin (delta_lambda / 2) in
   mean_Earth_radius * (2 * Math_atan2 (Math_sqrt a) (Math_sqrt (1 - a))))%float.


End Located.

(** [Math] functions for the samples: the square root of doubles, and the
    series of the sine, the cosine and the arc tangent cut after the terms
    that count at the small angles of the samples ([series_atan2] is for a
    positive second argument). *)
Definition series_sin (x : float) : float :=
  (x * (1 - x * x / 6 * (1 - x * x / 20 * (1 - x * x / 42 * (1 - x * x / 72)))))%float.

Definition series_cos (x : float) : float :=
  (1 - x * x / 2 * (1 - x * x / 12 * (1 - x * x / 30 * (1 - x * x / 56))))%float.

Definition series_atan2 (y x : float) : float :=
  (let t := y / x in
   t * (1 - t * t * (1 / 3 - t * t * (1 / 5 - t * t * (1 / 7 - t * t * (1 / 9 - t * t / 11))))))%float.

Definition organization_at (name : string) (lat lng : float) : obj := object [
  ("userId", VStr "7c9e"); ("name", VStr name);
  ("location", VObj (object [
     ("lat", VNum lat); ("lng", VNum lng); ("address", VStr "Main Street 1")]))].

Definition organization_nowhere : obj := object [
  ("userId", VStr "7c9e"); ("name", VStr "Nowhere")].

(** An organization ten degrees north and east of the origin, one a
    thousandth of a degree north and east of it, and one with no location. *)
Definition three_organizations : World :=
  run sample_ToString
    [CreateOrganization (organization_at "Far" 10 10);
     CreateOrganization (organization_at "Near" 0.001 0.001);
     CreateOrganization organization_nowhere]
    (boot sample_uuid same_millisecond).

(** ** Creation timestamps of donations *)

(** An update of a donation does not name [createdAt], or names it with a
    Date. *)
Definition keeps_createdAt (c : Call) : Prop :=
  match c with
  | UpdateDonation _ p =>
      p !! "createdAt" = None ∨ ∃ t, p !! "createdAt" = Some (VDate t)
  | _ => True
  end.

(** * Properties *)

(** ** Maps and objects *)

Lemma Map_get_set_eq (k : string) (v : obj) (m : JsMap) :
  Map_get k (Map_set k v m) = Some v.
Proof.
  induction m as [|[k' v'] m IH]; simpl.
  - by rewrite String.eqb_refl.
  - destruct (String.eqb k k') eqn:E; simpl; rewrite ?String.eqb_refl, ?E; done.
Qed.

Lemma Map_get_set_ne (k k' : string) (v : obj) (m : JsMap) :
  k ≠ k' → Map_get k' (Map_set k v m) = Map_get k' m.
Proof.
  intros Hne. induction m as [|[k0 v0] m IH]; simpl.
  - destruct (String.eqb k' k) eqn:E; [|done].
    apply String.eqb_eq in E. congruence.
  - destruct (String.eqb k k0) eqn:E; simpl.
    + apply String.eqb_eq in E. subst k0.
      destruct (String.eqb k' k) eqn:E'; [|done].
      apply String.eqb_eq in E'. congruence.
    + by rewrite IH.
Qed.


Lemma Map_set_Forall (P : string * obj → Prop) (k : string) (v : obj) (m : JsMap) :
  P (k, v) → Forall P m → Forall P (Map_set k v m).
Proof.
  intros Hv. induction 1 as [|[k' v'] m Hx Hm IH]; simpl.
  - by constructor.
  - destruct (String.eqb k k'); by constructor.
Qed.

Lemma Map_get_Forall (P : string * obj → Prop) (k : string) (v : obj) (m : JsMap) :
  Forall P m → Map_get k m = Some v → P (k, v).
Proof.
  induction 1 as [|[k' v'] m Hx Hm IH]; simpl; [done|].
  destruct (String.eqb k k') eqn:E; [|done].
  apply String.eqb_eq in E. intros [= <-]. by subst.
Qed.

Lemma Map_set_values_Forall (P : obj → Prop) (k : string) (v : obj) (m : JsMap) :
  P v → Forall P (Map_values m) → Forall P (Map_values (Map_set k v m)).
Proof.
  intros Hv. induction m as [|[k' v'] m IH]; simpl; intros H.
  - by constructor.
  - inversion H; subst. destruct (String.eqb k k'); simpl; constructor; auto.
Qed.

Lemma spread_named (a b : obj) (f : string) (v : value) :
  b !! f = Some v → spread a b !! f = Some v.
Proof. intros H. unfold spread. by apply lookup_union_Some_l. Qed.

Lemma spread_unnamed (a b : obj) (f : string) :
  b !! f = None → spread a b !! f = a !! f.
Proof. intros H. unfold spread. by apply lookup_union_r. Qed.

(** ** Running a method body *)

Ltac run_M :=
  cbv beta iota zeta delta
    [mbind M_bind mret M_ret read update throw lift randomUUID new_Date
     users_set organizations_set donations_set requests_set activities_set
     volunteerRegistrations_set matches_set activityFeed_set payments_set
     notifications_set];
  cbn [fst snd this users organizations donations requests activities
       volunteerRegistrations matches activityFeed payments notifications
       uuid_stream uuid_drawn clock_stream clock_drawn].

(** ** Reads *)

(** The lookups by identifier return without touching the world. *)
Lemma reads_keep_world (id : string) (w : World) :
  getUser id w = (Ok (Map_get id (users (this w))), w) ∧
  getDonation id w = (Ok (Map_get id (donations (this w))), w) ∧
  getRequest id w = (Ok (Map_get id (requests (this w))), w) ∧
  getActivity id w = (Ok (Map_get id (activities (this w))), w) ∧
  getPayment id w = (Ok (Map_get id (payments (this w))), w).
Proof. repeat split. Qed.

(** ** Update methods *)

Ltac update_absent :=
  let H := fresh in
  intros id partial w; destruct (Map_get id _) eqn:H;
  [ eexists _, _ | ]; run_M; rewrite H; reflexivity.

(** C2. Each of updateUser, updateDonation, updateRequest, updateActivity and
    updatePayment, called with an identifier that its map does not hold, throws
    its "not found" error and leaves the world exactly as it was; called with
    an identifier that the map holds, it returns a record. *)
Theorem update_fails_exactly_when_absent :
  fails_when_absent users updateUser "User not found" ∧
  fails_when_absent donations updateDonation "Donation not found" ∧
  fails_when_absent requests updateRequest "Request not found" ∧
  fails_when_absent activities updateActivity "Activity not found" ∧
  fails_when_absent payments updatePayment "Payment not found".
Proof.
  repeat split.
  - unfold updateUser. update_absent.
  - unfold updateDonation. update_absent.
  - unfold updateRequest. update_absent.
  - unfold updateActivity. update_absent.
  - unfold updatePayment. update_absent.
Qed.

Ltac update_present :=
  let H := fresh in
  intros id partial w record H; run_M; rewrite H; run_M;
  eexists _, _; split; [reflexivity|]; cbn; split; [apply Map_get_set_eq|];
  split; [intros f v; apply spread_named | intros f; apply spread_unnamed].

(** C3. For a record present in the store and any partial update of its
    identifier, each update method returns the record that is stored under the
    identifier afterwards; that record has the partial's value at every field
    the partial names and the prior value at every field it does not name. *)
Theorem update_merges_partial :
  merges_partial users updateUser ∧
  merges_partial donations updateDonation ∧
  merges_partial requests updateRequest ∧
  merges_partial activities updateActivity ∧
  merges_partial payments updatePayment.
Proof.
  repeat split.
  - unfold updateUser. update_present.
  - unfold updateDonation. update_present.
  - unfold updateRequest. update_present.
  - unfold updateActivity. update_present.
  - unfold updatePayment. update_present.
Qed.

Lemma update_merges_partial_witness :
  ∃ record r w',
    Map_get "7c9e" (users (this world_with_user)) = Some record ∧
    updateUser "7c9e" {["bio" := VStr "Gardener"]} world_with_user = (Ok r, w') ∧
    Map_get "7c9e" (users (this w')) = Some r ∧
    r !! "bio" = Some (VStr "Gardener") ∧
    r !! "email" = record !! "email".
Proof.
  eexists.
  destruct (proj1 update_merges_partial "7c9e" {["bio" := VStr "Gardener"]}
              world_with_user _ eq_refl) as (r & w' & Hrun & Hget & Hnamed & Hkept).
  exists r, w'. repeat split; [exact Hrun | exact Hget | |].
  - apply Hnamed. reflexivity.
  - apply Hkept. reflexivity.
Defined.

(** ** Notifications *)

(** C10. Whatever the input holds, a [read] of [true] included,
    createNotification returns a notification whose [read] is [false], stored
    under the identifier it generated. *)
Theorem createNotification_read_false (notificationData : obj) (w : World) :
  ∃ (id : string) (n : obj) (w' : World),
    createNotification notificationData w = (Ok n, w') ∧
    n !! "read" = Some (VBool false) ∧
    n !! "id" = Some (VStr id) ∧
    Map_get id (notifications (this w')) = Some n.
Proof.
  unfold createNotification. run_M. eexists _, _, _.
  split; [reflexivity|]. repeat split.
  - rewrite lookup_insert_ne by done. apply lookup_insert_eq.
  - do 2 (rewrite lookup_insert_ne by done). apply lookup_insert_eq.
  - cbn. apply Map_get_set_eq.
Qed.

(** C8. markNotificationAsRead on an identifier that the notification map
    does not hold returns and leaves the world exactly as it was; on an
    identifier that it holds, it returns, replaces the stored notification, in
    place, by one whose [read] is [true] and whose other fields are as before,
    and changes nothing else. *)
Theorem markNotificationAsRead_spec (id : string) (w : World) :
  match Map_get id (notifications (this w)) with
  | None => markNotificationAsRead id w = (Ok tt, w)
  | Some n =>
      ∃ n' w',
        markNotificationAsRead id w = (Ok tt, w') ∧
        notifications (this w') = Map_set id n' (notifications (this w)) ∧
        Map_get id (notifications (this w')) = Some n' ∧
        n' !! "read" = Some (VBool true) ∧
        (∀ f, f ≠ "read" → n' !! f = n !! f) ∧
        (∀ k, k ≠ id →
           Map_get k (notifications (this w')) = Map_get k (notifications (this w))) ∧
        same_but_notifications w w'
  end.
Proof.
  destruct (Map_get id _) as [n|] eqn:H; unfold markNotificationAsRead; run_M;
    rewrite H; [|reflexivity].
  run_M. eexists _, _. split; [reflexivity|]. cbn. repeat split.
  - apply Map_get_set_eq.
  - apply lookup_insert_eq.
  - intros f Hf. by apply lookup_insert_ne.
  - intros k Hk. apply Map_get_set_ne. congruence.
Qed.

(** ** The location filter *)

(** C6. getDonations, getRequests and getActivities return the same, from
    the same world, whether or not the filters carry a location, and whatever
    the location is. *)
Theorem location_filter_ignored (w : World) (location : option GeoQuery) :
  (∀ type,
     getDonations (Some {| df_type := type; df_location := location |}) w =
     getDonations (Some {| df_type := type; df_location := None |}) w) ∧
  (∀ type urgency,
     getRequests
       (Some {| rf_type := type; rf_urgency := urgency; rf_location := location |}) w =
     getRequests
       (Some {| rf_type := type; rf_urgency := urgency; rf_location := None |}) w) ∧
  getActivities (Some {| af_location := location |}) w =
    getActivities (Some {| af_location := None |}) w ∧
  getDonations (Some {| df_type := None; df_location := location |}) w =
    getDonations None w ∧
  getRequests
    (Some {| rf_type := None; rf_urgency := None; rf_location := location |}) w =
    getRequests None w ∧
  getActivities (Some {| af_location := location |}) w = getActivities None w.
Proof. repeat split. Qed.

(** ** Sorting by creation timestamp *)

Lemma newest_first_dated (a b : obj) :
  dated a → dated b → newest_first a b = Ok (stamp b - stamp a).
Proof.
  intros [ta Ha] [tb Hb]. unfold newest_first, stamp. by rewrite Ha, Hb.
Qed.

Lemma filter_created_at_swap (t : Z) (x y : obj) (l : list obj) :
  stamp x ≠ stamp y →
  List.filter (created_at t) (y :: x :: l) = List.filter (created_at t) (x :: y :: l).
Proof.
  intros Hne. cbn. unfold created_at.
  destruct (Z.eqb_spec (stamp y) t), (Z.eqb_spec (stamp x) t); congruence.
Qed.

Lemma sort_insert_newest_first (x : obj) (s : list obj) :
  dated x → Forall dated s →
  ∃ s',
    sort_insert newest_first x s = Ok s' ∧
    s' ≡ₚ x :: s ∧
    (StronglySorted (λ a b, stamp b ≤ stamp a) s →
     StronglySorted (λ a b, stamp b ≤ stamp a) s') ∧
    ∀ t, List.filter (created_at t) s' = List.filter (created_at t) (x :: s).
Proof.
  intros Hx. induction 1 as [|y rest Hy Hrest IH].
  - exists [x]. repeat split; [done | by repeat constructor].
  - cbn [sort_insert]. rewrite (newest_first_dated x y Hx Hy). cbn [mbind Result_bind].
    destruct (Z.ltb_spec 0 (stamp y - stamp x)) as [Hlt|Hge].
    + destruct IH as (rest' & -> & Hperm & Hsorted & Hties). cbn [mbind Result_bind].
      exists (y :: rest'). repeat split.
      * rewrite Hperm. apply perm_swap.
      * intros Hs. apply StronglySorted_inv in Hs as [Hs Hall].
        constructor; [by apply Hsorted|].
        rewrite Hperm. constructor; [lia | done].
      * intros t. rewrite <- filter_created_at_swap by lia.
        cbn. rewrite Hties. reflexivity.
    + exists (x :: y :: rest). repeat split; [done|].
      intros Hs. constructor; [done|].
      apply StronglySorted_inv in Hs as [Hs Hall].
      constructor; [lia|].
      eapply Forall_impl; [exact Hall|]. cbn. intros; lia.
Qed.

Lemma Array_sort_newest_first (l : list obj) :
  Forall dated l →
  ∃ s, Array_sort newest_first l = Ok s ∧ listed_newest_first l s.
Proof.
  induction 1 as [|x l Hx Hl IH].
  - exists []. repeat split; [done | constructor].
  - destruct IH as (s & Hs & Hperm & Hsorted & Hties).
    assert (Forall dated s) as Hds by (by rewrite Hperm).
    destruct (sort_insert_newest_first x s Hx Hds) as (s' & Hs' & Hp' & Hsor' & Ht').
    exists s'. cbn [Array_sort]. rewrite Hs. cbn [mbind Result_bind]. split; [exact Hs'|].
    repeat split.
    + by rewrite Hp', Hperm.
    + by apply Hsor'.
    + intros t. rewrite Ht'. cbn. by rewrite Hties.
Qed.

Lemma Forall_List_filter {A} (P : A → Prop) (f : A → bool) (l : list A) :
  Forall P l → Forall P (List.filter f l).
Proof.
  induction 1 as [|x l Hx Hl IH]; cbn; [constructor|].
  destruct (f x); [by constructor | done].
Qed.

Lemma has_type_spec (t : string) (d : obj) :
  has_type t d = true ↔ prop d "type" = VStr t.
Proof.
  unfold has_type, strict_eq_string. destruct (prop d "type"); try (split; congruence).
  rewrite String.eqb_eq. split; congruence.
Qed.

(** ** getDonations *)

Lemma filter_if_cases (s : option string) (keep : string → obj → bool) (l : list obj) :
  filter_if s keep l =
  match s with
  | Some t => if String.eqb t "" then l else List.filter (keep t) l
  | None => l
  end.
Proof.
  destruct s as [t|]; [|done]. cbn. by destruct (String.eqb t "").
Qed.

(** C5, as amended. In a world whose stored donations carry their creation
    timestamps, getDonations with a type [t] other than the empty string
    returns exactly the stored donations whose type is [t], newest first,
    donations of one timestamp in insertion order; with no filters, no type, or
    the empty string as type, it returns all stored donations in that order. *)
Theorem getDonations_lists_newest_first (w : World) :
  Forall dated (Map_values (donations (this w))) →
  (∀ t location, t ≠ "" →
     ∃ l,
       getDonations (Some {| df_type := Some t; df_location := location |}) w = (Ok l, w) ∧
       listed_newest_first
         (List.filter (has_type t) (Map_values (donations (this w)))) l) ∧
  (∀ filters, filters ≫= df_type = None ∨ filters ≫= df_type = Some "" →
     ∃ l,
       getDonations filters w = (Ok l, w) ∧
       listed_newest_first (Map_values (donations (this w))) l).
Proof.
  intros Hdated. split.
  - intros t location Ht.
    destruct (Array_sort_newest_first
                (List.filter (has_type t) (Map_values (donations (this w)))))
      as (l & Hsort & Hl); [by apply Forall_List_filter|].
    exists l. split; [|exact Hl].
    unfold getDonations. run_M. rewrite filter_if_cases. cbn.
    apply String.eqb_neq in Ht. rewrite Ht. fold (has_type t). by rewrite Hsort.
  - intros filters Hnone.
    destruct (Array_sort_newest_first (Map_values (donations (this w))) Hdated)
      as (l & Hsort & Hl).
    exists l. split; [|exact Hl].
    unfold getDonations. run_M. rewrite filter_if_cases. unfold mbind in Hnone.
    destruct Hnone as [-> | ->]; cbn; by rewrite Hsort.
Qed.

Lemma getDonations_lists_newest_first_witness :
  Forall dated (Map_values (donations (this two_food_donations))) ∧
  ∃ l,
    getDonations (Some {| df_type := Some "food"; df_location := None |})
      two_food_donations = (Ok l, two_food_donations) ∧
    listed_newest_first
      (List.filter (has_type "food") (Map_values (donations (this two_food_donations)))) l.
Proof.
  assert (Forall dated (Map_values (donations (this two_food_donations)))) as H.
  { repeat (constructor; [eexists; vm_compute; reflexivity|]). constructor. }
  split; [exact H|].
  apply (proj1 (getDonations_lists_newest_first two_food_donations H) "food" None).
  discriminate.
Defined.

Lemma two_food_donations_listing (t : string) :
  t = "food" ∨ t = "" →
  getDonations (Some {| df_type := Some t; df_location := None |}) two_food_donations =
  (Ok (Map_values (donations (this two_food_donations))), two_food_donations).
Proof.
  intros [-> | ->]; vm_compute; reflexivity.
Qed.

(** C5, as stated, fails on [two_food_donations]: the two donations of type
    "food" carry one timestamp, so no listing of them is strictly descending;
    and the empty string as type lists both, though neither has that type. *)
Lemma getDonations_neither_strict_nor_exact :
  ¬ getDonations_strict_and_exact two_food_donations "food" ∧
  ¬ getDonations_strict_and_exact two_food_donations "".
Proof.
  split; intros (l & Hrun & Hperm & Hsorted).
  - rewrite two_food_donations_listing in Hrun by (by left).
    injection Hrun as <-.
    apply StronglySorted_inv in Hsorted as [_ Hall].
    apply Forall_inv in Hall. vm_compute in Hall. discriminate.
  - rewrite two_food_donations_listing in Hrun by (by right).
    injection Hrun as <-.
    apply Permutation_length in Hperm. vm_compute in Hperm. discriminate.
Qed.

(** ** Sequences of calls *)

Lemma run_invariant (ts : value → string) (P : World → Prop) (Q : Call → Prop) :
  (∀ c w, Q c → P w → P (after ts c w)) →
  ∀ calls w, Forall Q calls → P w → P (run ts calls w).
Proof.
  intros Hstep calls. induction calls as [|c calls IH]; intros w Hq Hw; [done|].
  inversion Hq; subst. cbn. apply IH; [done|]. by apply Hstep.
Qed.

(** Unfolds the call and the method it stands for, down to the world left. *)
Ltac run_call :=
  cbn [after];
  unfold createUser, updateUser, createOrganization, createDonation, updateDonation,
    createRequest, updateRequest, createActivity, updateActivity,
    createVolunteerRegistration, createMatch, createActivityFeedItem, createPayment,
    updatePayment, createNotification, markNotificationAsRead;
  run_M;
  try match goal with
      | |- context [Map_get ?k ?m] => destruct (Map_get k m) eqn:?
      end;
  run_M.

(** ** The activity feed *)




Lemma Map_get_values_elem (k : string) (v : obj) (m : JsMap) :
  Map_get k m = Some v → v ∈ Map_values m.
Proof.
  induction m as [|[k' v'] m IH]; cbn; [done|].
  destruct (String.eqb k k'); [intros [= ->]; by left | intros; right; auto].
Qed.










(** ** The feed called with no limit *)








(** ** Identifiers *)

Lemma entries_keyed_ids_kept (w : World) : entries_keyed w → ids_kept w.
Proof.
  intros H table Hin id r Hget.
  unfold entries_keyed in H. rewrite Forall_forall in H.
  exact (Map_get_Forall keyed_by_id id r _ (H table Hin) Hget).
Qed.

Lemma spread_keeps_id (id : string) (record partial : obj) :
  record !! "id" = Some (VStr id) → partial_keeps_id id partial →
  spread record partial !! "id" = Some (VStr id).
Proof.
  intros Hr [Hp | Hp].
  - by rewrite spread_unnamed.
  - by apply spread_named.
Qed.

Lemma after_entries_keyed (ts : value → string) (c : Call) (w : World) :
  keeps_id c → entries_keyed w → entries_keyed (after ts c w).
Proof.
  unfold entries_keyed, tables. rewrite !Forall_cons.
  intros Hc (Hu & Ho & Hd & Hr & Ha & Hv & Hm & Hf & Hp & Hn & _).
  destruct c; run_call; repeat split; try assumption; try constructor;
    repeat (apply Map_set_Forall; [|assumption]); unfold keyed_by_id; cbn [fst snd];
    try reflexivity;
    try (do 2 (rewrite lookup_insert_ne by done); apply lookup_insert_eq);
    try (rewrite lookup_insert_ne by done; apply lookup_insert_eq);
    try (apply spread_keeps_id; [|exact Hc];
         match goal with
         | Hall : Forall keyed_by_id ?m, Hget : Map_get _ ?m = Some _ |- _ =>
             exact (Map_get_Forall keyed_by_id _ _ _ Hall Hget)
         end).
  rewrite lookup_insert_ne by done.
  match goal with
  | Hget : Map_get _ _ = Some _ |- _ => exact (Map_get_Forall keyed_by_id _ _ _ Hn Hget)
  end.
Qed.

(** C4, as amended. After any sequence of calls on a fresh store in which
    every update's partial either does not name [id] or names it with the
    identifier the update is called with, the record stored under a key, in
    any of the ten maps, has that key, the identifier generated at its
    creation, as its [id]. *)
Theorem ids_kept_unless_update_renames (ts : value → string)
    (uuid : nat → string) (clock : nat → Z) (calls : list Call) :
  Forall keeps_id calls → ids_kept (run ts calls (boot uuid clock)).
Proof.
  intros Hcalls. apply entries_keyed_ids_kept.
  apply (run_invariant ts entries_keyed keeps_id); [|exact Hcalls|].
  - intros c w. apply after_entries_keyed.
  - unfold entries_keyed, tables. repeat constructor.
Qed.

Lemma ids_kept_unless_update_renames_witness :
  Forall keeps_id
    [CreateUser sample_user; UpdateUser "7c9e" {["bio" := VStr "Gardener"]};
     CreateDonation rice; UpdateDonation "a1f4" {["id" := VStr "a1f4"]}] ∧
  ids_kept
    (run sample_ToString
       [CreateUser sample_user; UpdateUser "7c9e" {["bio" := VStr "Gardener"]};
        CreateDonation rice; UpdateDonation "a1f4" {["id" := VStr "a1f4"]}]
       (boot sample_uuid ticking_clock)).
Proof.
  assert (Forall keeps_id
    [CreateUser sample_user; UpdateUser "7c9e" {["bio" := VStr "Gardener"]};
     CreateDonation rice; UpdateDonation "a1f4" {["id" := VStr "a1f4"]}]) as H.
  { repeat apply Forall_cons_2; try exact I;
      [by left | by right | apply Forall_nil_2]. }
  split; [exact H|].
  exact (ids_kept_unless_update_renames sample_ToString sample_uuid ticking_clock _ H).
Defined.

(** C4, as stated, fails on [world_with_renamed_user]: after
    [updateUser("7c9e", { id: "0000" })] the record stored and returned under
    "7c9e" has "0000" as its [id]. *)
Lemma update_renames_id :
  ¬ ids_kept world_with_renamed_user ∧
  ∃ r,
    getUser "7c9e" world_with_renamed_user = (Ok (Some r), world_with_renamed_user) ∧
    r !! "id" = Some (VStr "0000").
Proof.
  split.
  - intros H.
    assert (users ∈ tables) as Hin by (unfold tables; set_solver).
    specialize (H users Hin "7c9e" _ eq_refl). vm_compute in H. discriminate.
  - eexists. split; reflexivity.
Qed.

(** ** Matches *)

Lemma createMatch_references (matchData : obj) (w : World) :
  ∃ m w',
    createMatch matchData w = (Ok m, w') ∧
    matches (this w') = Map_set (uuid_stream w (uuid_drawn w)) m (matches (this w)) ∧
    references non_null m = references is_set matchData.
Proof.
  unfold createMatch. run_M. eexists _, _. split; [reflexivity|]. split; [reflexivity|].
  unfold references.
  change (prop (object _) "donationId") with (nullish (prop matchData "donationId") VNull).
  change (prop (object _) "requestId") with (nullish (prop matchData "requestId") VNull).
  change (prop (object _) "activityId") with (nullish (prop matchData "activityId") VNull).
  destruct (prop matchData "donationId"), (prop matchData "requestId"),
    (prop matchData "activityId"); reflexivity.
Qed.

Lemma after_matches_single (ts : value → string) (c : Call) (w : World) :
  gives_single_reference c → matches_single w → matches_single (after ts c w).
Proof.
  unfold matches_single. intros Hc H.
  destruct c; try (run_call; exact H).
  cbn [after].
  destruct (createMatch_references matchData w) as (m & w' & Hrun & Hset & Hm).
  rewrite Hrun. cbn [snd]. rewrite Hset.
  apply Map_set_values_Forall; [|exact H].
  unfold single_reference. rewrite Hm. exact Hc.
Qed.

(** C9, as amended. The store keeps the three references of a match as
    createMatch is given them, [null] for one that is absent. After any
    sequence of calls on a fresh store in which every createMatch is given at
    most one of donationId, requestId and activityId, every stored match, and
    so every match getMatches returns, has at most one of them non-null, and
    so has the match a further such createMatch returns. *)
Theorem matches_single_reference (ts : value → string)
    (uuid : nat → string) (clock : nat → Z) (calls : list Call) :
  Forall gives_single_reference calls →
  Forall single_reference (Map_values (matches (this (run ts calls (boot uuid clock))))) ∧
  (∀ userId, ∃ l,
     getMatches userId (run ts calls (boot uuid clock)) =
       (Ok l, run ts calls (boot uuid clock)) ∧
     Forall single_reference l) ∧
  (∀ matchData, (references is_set matchData ≤ 1)%nat →
     ∃ m w',
       createMatch matchData (run ts calls (boot uuid clock)) = (Ok m, w') ∧
       single_reference m).
Proof.
  intros Hcalls.
  assert (matches_single (run ts calls (boot uuid clock))) as H.
  { apply (run_invariant ts matches_single gives_single_reference); [|exact Hcalls|].
    - intros c w. apply after_matches_single.
    - constructor. }
  split; [exact H|]. split.
  - intros userId. eexists. split; [reflexivity|]. by apply Forall_List_filter.
  - intros matchData Hd.
    destruct (createMatch_references matchData (run ts calls (boot uuid clock)))
      as (m & w' & Hrun & _ & Hm).
    exists m, w'. split; [exact Hrun|]. unfold single_reference. by rewrite Hm.
Qed.

Lemma matches_single_reference_witness :
  Forall gives_single_reference [CreateDonation rice; CreateMatch donation_match] ∧
  Forall single_reference
    (Map_values (matches (this
       (run sample_ToString [CreateDonation rice; CreateMatch donation_match]
          (boot sample_uuid ticking_clock))))).
Proof.
  assert (Forall gives_single_reference
            [CreateDonation rice; CreateMatch donation_match]) as H.
  { repeat constructor. }
  split; [exact H|].
  exact (proj1 (matches_single_reference sample_ToString sample_uuid ticking_clock _ H)).
Defined.

(** C9, as stated, fails on [world_with_double_match]: createMatch, given a
    donationId and a requestId, stores and returns a match with both. *)
Lemma createMatch_stores_two_references :
  ¬ Forall single_reference (Map_values (matches (this world_with_double_match))) ∧
  ∃ m w',
    createMatch double_match (boot sample_uuid ticking_clock) = (Ok m, w') ∧
    m !! "donationId" = Some (VStr "d-1") ∧
    m !! "requestId" = Some (VStr "r-1").
Proof.
  split.
  - intros H. apply Forall_inv in H. vm_compute in H. lia.
  - unfold createMatch. run_M. eexists _, _. split; [reflexivity|]. split; reflexivity.
Qed.

(** ** Organizations by location *)

Section Geo.

Variables Math_sin Math_cos Math_sqrt : float → float.
Variable Math_atan2 : float → float → float.





End Geo.

(** ** Creation timestamps of donations *)

Lemma spread_dated (record partial : obj) :
  dated record →
  partial !! "createdAt" = None ∨ (∃ t, partial !! "createdAt" = Some (VDate t)) →
  dated (spread record partial).
Proof.
  intros [t Hr] [Hp | [t' Hp]]; unfold dated, prop in *.
  - exists t. by rewrite spread_unnamed.
  - exists t'. by rewrite (spread_named _ _ _ _ Hp).
Qed.

Lemma after_donations_dated (ts : value → string) (c : Call) (w : World) :
  keeps_createdAt c →
  Forall dated (Map_values (donations (this w))) →
  Forall dated (Map_values (donations (this (after ts c w)))).
Proof.
  intros Hc H.
  destruct c; run_call; try exact H; (apply Map_set_values_Forall; [|exact H]).
  - by eexists.
  - apply spread_dated; [|exact Hc].
    rewrite Forall_forall in H. apply H. by eapply Map_get_values_elem.
Qed.

(** The stored donations carry their creation timestamps after any sequence of
    calls on a fresh store whose updates of donations leave [createdAt] a Date;
    getDonations then returns, whatever the filters. *)
Theorem donations_stay_dated (ts : value → string)
    (uuid : nat → string) (clock : nat → Z) (calls : list Call) :
  Forall keeps_createdAt calls →
  Forall dated (Map_values (donations (this (run ts calls (boot uuid clock))))) ∧
  ∀ filters, ∃ l,
    getDonations filters (run ts calls (boot uuid clock)) =
      (Ok l, run ts calls (boot uuid clock)).
Proof.
  intros Hcalls.
  assert (Forall dated (Map_values (donations (this (run ts calls (boot uuid clock))))))
    as H.
  { apply (run_invariant ts (λ w, Forall dated (Map_values (donations (this w))))
             keeps_createdAt); [|exact Hcalls|].
    - intros c w. apply after_donations_dated.
    - constructor. }
  split; [exact H|]. intros filters.
  destruct (Array_sort_newest_first
              (filter_if (filters ≫= df_type) (λ t d, strict_eq_string (prop d "type") t)
                 (Map_values (donations (this (run ts calls (boot uuid clock)))))))
    as (l & Hsort & _).
  { rewrite filter_if_cases. destruct (filters ≫= df_type) as [t|]; [|exact H].
    destruct (String.eqb t ""); [exact H | by apply Forall_List_filter]. }
  exists l. unfold getDonations. run_M. unfold mbind in Hsort. by rewrite Hsort.
Qed.

Lemma donations_stay_dated_witness :
  Forall keeps_createdAt
    [CreateDonation rice; UpdateDonation "7c9e" {["status" := VStr "claimed"]}] ∧
  Forall dated
    (Map_values (donations (this
       (run sample_ToString
          [CreateDonation rice; UpdateDonation "7c9e" {["status" := VStr "claimed"]}]
          (boot sample_uuid ticking_clock))))).
Proof.
  assert (Forall keeps_createdAt
    [CreateDonation rice; UpdateDonation "7c9e" {["status" := VStr "claimed"]}]) as H.
  { repeat apply Forall_cons_2; try exact I; [by left | apply Forall_nil_2]. }
  split; [exact H|].
  exact (proj1 (donations_stay_dated sample_ToString sample_uuid ticking_clock _ H)).
Defined.

(** ** Users *)

(** createUser followed by getUser of the identifier returned yields the
    record createUser returned. *)
Theorem createUser_getUser (insertUser : obj) (w : World) :
  ∃ id user w',
    createUser insertUser w = (Ok user, w') ∧
    user !! "id" = Some (VStr id) ∧
    getUser id w' = (Ok (Some user), w').
Proof.
  unfold createUser, getUser. run_M. eexists _, _, _.
  split; [reflexivity|]. split; [reflexivity|].
  cbn [this users]. by rewrite Map_get_set_eq.
Qed.

(** ** The store at work *)

(** A notification created with [read: true] is stored unread. *)
Example createNotification_sample :
  sample_notification !! "read" = Some (VBool true) ∧
  ∃ n,
    Map_get "7c9e" (notifications (this world_with_notification)) = Some n ∧
    n !! "read" = Some (VBool false) ∧
    n !! "title" = Some (VStr "Thank you").
Proof. split; [reflexivity|]. eexists. repeat split; reflexivity. Qed.

Example markNotificationAsRead_unknown :
  markNotificationAsRead "ffff" world_with_notification = (Ok tt, world_with_notification).
Proof. reflexivity. Qed.

Example markNotificationAsRead_known :
  ∃ n,
    Map_get "7c9e"
      (notifications (this (snd (markNotificationAsRead "7c9e" world_with_notification))))
      = Some n ∧
    n !! "read" = Some (VBool true) ∧
    n !! "title" = Some (VStr "Thank you").
Proof. eexists. repeat split; reflexivity. Qed.

Example updateDonation_unknown :
  updateDonation "ffff" {["status" := VStr "claimed"]} two_food_donations =
  (Throw (Error "Donation not found"), two_food_donations).
Proof. reflexivity. Qed.

Example updateDonation_known :
  ∃ r w',
    updateDonation "7c9e" {["status" := VStr "claimed"]} two_food_donations = (Ok r, w') ∧
    r !! "status" = Some (VStr "claimed") ∧
    r !! "title" = Some (VStr "Rice, 10 kg") ∧
    r !! "id" = Some (VStr "7c9e").
Proof.
  unfold updateDonation. run_M. eexists _, _.
  split; [vm_compute; reflexivity|]. repeat split; reflexivity.
Qed.

(** The feed of [two_food_donations]: one item per donation. *)
Example two_food_donations_feed :
  map fst (donations (this two_food_donations)) = ["7c9e"; "b2d8"] ∧
  map fst (activityFeed (this two_food_donations)) = ["a1f4"; "c3aa"] ∧
  map (λ item, prop item "metadata") (Map_values (activityFeed (this two_food_donations))) =
    [VObj (object [("donationId", VStr "7c9e"); ("type", VStr "food")]);
     VObj (object [("donationId", VStr "b2d8"); ("type", VStr "food")])].
Proof. repeat split; reflexivity. Qed.

(** The formula in kilometres: from the origin to ten degrees north and east
    it is some 1568.5 km, to a thousandth of a degree north and east some
    157 m. *)
Example great_circle_distance_sample :
  let distance := great_circle_distance series_sin series_cos PrimFloat.sqrt series_atan2 in
  PrimFloat.leb 1568.5 (distance 0 0 10 10)%float = true ∧
  PrimFloat.leb (distance 0 0 10 10)%float 1568.6 = true ∧
  PrimFloat.leb 0.157 (distance 0 0 0.001 0.001)%float = true ∧
  PrimFloat.leb (distance 0 0 0.001 0.001)%float 0.158 = true.
Proof. repeat split; vm_compute; reflexivity. Qed.

(** Within one kilometre of the origin: the organization a thousandth of a
    degree away, neither the one ten degrees away nor the one with no
    location. *)
Example getOrganizationsByLocation_sample :
  match
    fst (getOrganizationsByLocation series_sin series_cos PrimFloat.sqrt series_atan2
           {| lat := 0; lng := 0; radius := Some 1%float |} three_organizations)
  with
  | Ok l => map (λ org, prop org "name") l = [VStr "Near"]
  | Throw _ => False
  end.
Proof. vm_compute. reflexivity. Qed.
